(** * shortest-plates: the enumeration worker of [app.py]

    A shallow embedding of the plate checker: the combination generator,
    the response classifier, the JSON-lines result store, and the
    background worker with its [/start] and [/stop] routes.

    Python text is a sequence of Unicode code points, so a [str] is a list
    of code points.  The two library functions whose full definition is
    outside the repository, [str.lower] and [json.loads], are the fields of
    the class [PyLib]; every statement holds for every implementation of
    them, and the laws a statement needs are written as its hypotheses. *)

From Stdlib Require Import List NArith ZArith Bool String Ascii Lia Sorted.
Import ListNotations.

(** ** Python strings *)

Definition char := N.
Definition str := list char.

(** A literal of the source; its characters are ASCII. *)
Definition lit (s : string) : str := map N_of_ascii (list_ascii_of_string s).

Fixpoint str_eqb (a b : str) : bool :=
  match a, b with
  | [], [] => true
  | x :: a', y :: b' => N.eqb x y && str_eqb a' b'
  | _, _ => false
  end.

(** [s.startswith(p)] *)
Fixpoint startswith (s p : str) : bool :=
  match p, s with
  | [], _ => true
  | _ :: _, [] => false
  | y :: p', x :: s' => N.eqb x y && startswith s' p'
  end.

(** [sub in s] *)
Fixpoint str_in (sub s : str) : bool :=
  match s with
  | [] => startswith [] sub
  | _ :: s' => startswith s sub || str_in sub s'
  end.

(** [s[:n]] for a non-negative constant [n] *)
Definition slice_to (n : nat) (s : str) : str := firstn n s.

(** What the tests mean. *)
Definition prefix_of (p s : str) : Prop := exists r, s = p ++ r.
Definition substring_of (sub s : str) : Prop := exists a b, s = a ++ sub ++ b.

(** Python's lexicographic order on strings, by code point. *)
Fixpoint str_lt (a b : str) : Prop :=
  match a, b with
  | _, [] => False
  | [], _ :: _ => True
  | x :: a', y :: b' => (x < y)%N \/ (x = y /\ str_lt a' b')
  end.

(** ** JSON values, as [json.loads] returns them *)

#[warnings="-register-all"]
Inductive json :=
| JNull
| JBool (b : bool)
| JInt (z : Z)
| JFloat (repr : str)
| JStr (s : str)
| JList (l : list json)
| JDict (items : list (str * json)).

(** ** The library functions taken as parameters

    [lower s] is [s.lower()].  [json_loads s] is [json.loads(s)], with
    [None] for a [json.JSONDecodeError]. *)
Class PyLib := {
  lower : str -> str;
  json_loads : str -> option json
}.

(** ** Response classifier ([parse_status], lines 86-100) *)

Definition ERROR_SENTINEL : str := lit "__ERROR__".
Definition MAX_ATTEMPTS : str :=
  lit "You have reached the maximum plate preview attempts".
Definition PLATE_ISSUED : str := lit "Plate is issued".
Definition AVAILABLE : str := lit "available".

Definition parse_status `{PyLib} (response_text : str) : str * str :=
  if startswith response_text ERROR_SENTINEL then
    (lit "error", response_text)
  else if str_in MAX_ATTEMPTS response_text then
    (lit "blocked", lit "rate-limited")
  else if str_in PLATE_ISSUED response_text then
    (lit "issued", lit "")
  else if str_in AVAILABLE (lower response_text) then
    (lit "available", lit "")
  else
    (lit "unknown", slice_to 200 response_text).

(** The status vocabulary of the docstring. *)
Definition STATUSES : list str :=
  [lit "issued"; lit "available"; lit "blocked"; lit "error"; lit "unknown"].

(** ** Combination generator ([generate_combinations], lines 68-73) *)

Definition letters : str := lit "ABCDEFGHIJKLMNOPQRSTUVWXYZ".

Definition combinations_over (outer inner : str) : list str :=
  flat_map (fun a => map (fun b => [a] ++ [b]) inner) outer.

Definition generate_combinations : list str := combinations_over letters letters.

(** ** Fetch boundary ([check_plate], lines 75-84)

    [requests.get] either answers with a body or raises; [Raised e] carries
    [str(e)]. *)
Inductive response :=
| Body (text : str)
| Raised (e : str).

Definition check_plate (fetch : str -> response) (url : str) : str :=
  match fetch url with
  | Body text => match text with [] => lit "" | _ => text end
  | Raised e => lit "__ERROR__ " ++ e
  end.

(** ** Result store ([save_result], [load_results], lines 37-65) *)

Definition NL : char := 10%N.

(** [str.isspace] on one character: the characters [str.strip] removes. *)
Definition isspace (c : char) : bool :=
  ((9 <=? c) && (c <=? 13) || (28 <=? c) && (c <=? 32) || (c =? 133)
   || (c =? 160) || (c =? 5760) || (8192 <=? c) && (c <=? 8202)
   || (c =? 8232) || (c =? 8233) || (c =? 8239) || (c =? 8287)
   || (c =? 12288))%N.

Fixpoint drop_while (f : char -> bool) (s : str) : str :=
  match s with
  | [] => []
  | c :: s' => if f c then drop_while f s' else s
  end.

(** [s.strip()] *)
Definition strip (s : str) : str :=
  rev (drop_while isspace (rev (drop_while isspace s))).

(** Iterating over a file opened in text mode: the lines, each with the
    newline that ends it; the last one has none when the file does not end
    in a newline.  [cur] holds the current line backwards. *)
Fixpoint readlines_from (cur : str) (content : str) : list str :=
  match content with
  | [] => match cur with [] => [] | _ => [rev cur] end
  | c :: rest =>
      if (c =? NL)%N then rev (c :: cur) :: readlines_from [] rest
      else readlines_from (c :: cur) rest
  end.

Definition readlines (content : str) : list str := readlines_from [] content.

(** [json.dumps(record, ensure_ascii=False)] for a dict of strings: the
    encoder escapes the quote, the backslash and the control characters
    below U+0020, and writes every other character as it is. *)
Definition hex_digit (n : N) : char :=
  if (n <? 10)%N then (48 + n)%N else (87 + n)%N.

Definition escape_char (c : char) : str :=
  if (c =? 34)%N then [92; 34]%N
  else if (c =? 92)%N then [92; 92]%N
  else if (c =? 10)%N then [92; 110]%N
  else if (c =? 13)%N then [92; 114]%N
  else if (c =? 9)%N then [92; 116]%N
  else if (c =? 8)%N then [92; 98]%N
  else if (c =? 12)%N then [92; 102]%N
  else if (c <? 32)%N then
    [92; 117; 48; 48; hex_digit (c / 16); hex_digit (c mod 16)]%N
  else [c].

Definition json_string (s : str) : str :=
  [34%N] ++ flat_map escape_char s ++ [34%N].

Definition dumps_item (kv : str * str) : str :=
  json_string (fst kv) ++ lit ": " ++ json_string (snd kv).

Fixpoint join (sep : str) (parts : list str) : str :=
  match parts with
  | [] => []
  | [x] => x
  | x :: rest => x ++ sep ++ join sep rest
  end.

Definition json_dumps (d : list (str * str)) : str :=
  lit "{" ++ join (lit ", ") (map dumps_item d) ++ lit "}".

(** The dict of strings as the value [json.loads] gives back. *)
Definition as_json (d : list (str * str)) : json :=
  JDict (map (fun kv => (fst kv, JStr (snd kv))) d).

(** The record of [save_result]; [now] is
    [datetime.now().isoformat(timespec="seconds")]. *)
Definition record (plate status note now : str) : list (str * str) :=
  [ (lit "plate", plate); (lit "status", status); (lit "note", note);
    (lit "checked_at", now) ].

(** The data file: [None] when it does not exist, else its text as a
    reader in text mode sees it.  A write that the file system refuses
    ([disk_ok = false]) raises: the result is [None].  Opening in append
    mode creates a missing file. *)
Definition save_result (now : str) (disk_ok : bool) (file : option str)
    (plate status note : str) : option (option str) :=
  let record := record plate status note now in
  if disk_ok then
    Some (Some (match file with Some text => text | None => [] end
                ++ (json_dumps record ++ [NL])))
  else None.

(** [rows[:limit]] for an integer [limit]. *)
Definition slice_rows {A} (rows : list A) (limit : Z) : list A :=
  if (0 <=? limit)%Z then firstn (Z.to_nat limit) rows
  else firstn (Z.to_nat (Z.of_nat (List.length rows) + limit)) rows.

(** Truth value of an optional integer. *)
Definition truthy (limit : option Z) : bool :=
  match limit with
  | None => false
  | Some z => negb (z =? 0)%Z
  end.

(** One turn of the reading loop (lines 56-63). *)
Definition read_line `{PyLib} (rows : list json) (line : str) : list json :=
  let line := strip line in
  match line with
  | [] => rows
  | _ => match json_loads line with
         | Some v => rows ++ [v]
         | None => rows
         end
  end.

Definition load_results `{PyLib} (file : option str) (limit : option Z)
    : list json :=
  match file with
  | None => []
  | Some text =>
      let rows := fold_left read_line (readlines text) [] in
      let rows := rev rows in
      if truthy limit
      then slice_rows rows (match limit with Some z => z | None => 0%Z end)
      else rows
  end.

(** ** Worker state (lines 24-34) *)

Record snapshot := {
  running : bool;
  last_plate : option str;
  last_status : option str;
  last_checked_at : option str;
  queue_remaining : option Z
}.

Record config := {
  BASE_URL_L : option str;
  BASE_URL_R : option str;
  SLEEP_SECONDS : Z;
  BLOCK_SLEEP : Z;
  CONTROL_TOKEN : option str
}.

(** Where a thread running [runner_loop] stands: started and not yet past
    line 108; at the head of the loop with the codes still to visit
    ([idx] numbers the first of them, from 1); returned; or ended by an
    exception nobody caught. *)
Inductive worker :=
| Spawned
| Looping (total idx : Z) (rest : list str)
| Returned
| Died.

(** The process: the [state] dict, the stop flag, the data file, every
    thread [start] has spawned (oldest first), and the lengths handed to
    [time.sleep] so far. *)
Record system := {
  state : snapshot;
  stop_event : bool;
  data_file : option str;
  workers : list worker;
  sleeps : list Z
}.

(** What the outside world does during one turn of the loop: the answer
    of the fetch, the clock at the two [datetime.now()] calls, and
    whether the file system accepts the write. *)
Record outcome := {
  fetched : response;
  save_time : str;
  disk_ok : bool;
  state_time : str
}.

Definition initial_state : snapshot :=
  {| running := false; last_plate := None; last_status := None;
     last_checked_at := None; queue_remaining := None |}.

Definition initial (file : option str) : system :=
  {| state := initial_state; stop_event := false; data_file := file;
     workers := []; sleeps := [] |}.

Definition set_running (b : bool) (st : snapshot) : snapshot :=
  {| running := b; last_plate := last_plate st;
     last_status := last_status st;
     last_checked_at := last_checked_at st;
     queue_remaining := queue_remaining st |}.

Definition with_state (st : snapshot) (s : system) : system :=
  {| state := st; stop_event := stop_event s; data_file := data_file s;
     workers := workers s; sleeps := sleeps s |}.

(** An f-string field: [None] prints as the word. *)
Definition fmt (v : option str) : str :=
  match v with
  | Some s => s
  | None => lit "None"
  end.

(** ** Background worker ([runner_loop], lines 103-132)

    One call is one atomic piece of the thread's run: lines 104-108, or one
    turn of the loop (lines 111-129), or leaving the loop (lines 131-132). *)
Definition runner_loop `{PyLib} (cfg : config) (o : outcome) (w : worker)
    (s : system) : worker * system :=
  match w with
  | Spawned =>
      let combos := generate_combinations in
      let total := Z.of_nat (List.length combos) in
      (Looping total 1 combos,
       with_state {| running := true;
                     last_plate := last_plate (state s);
                     last_status := last_status (state s);
                     last_checked_at := last_checked_at (state s);
                     queue_remaining := Some total |} s)
  | Looping total idx [] =>
      (Returned, with_state (set_running false (state s)) s)
  | Looping total idx (plate :: rest) =>
      if stop_event s then
        (Returned, with_state (set_running false (state s)) s)
      else
        let url := fmt (BASE_URL_L cfg) ++ plate ++ fmt (BASE_URL_R cfg) in
        let raw := check_plate (fun _ => fetched o) url in
        let (status, note) := parse_status raw in
        match save_result (save_time o) (disk_ok o) (data_file s)
                plate status note with
        | None => (Died, s)
        | Some file =>
            let st := {| running := running (state s);
                         last_plate := Some plate;
                         last_status := Some status;
                         last_checked_at := Some (state_time o);
                         queue_remaining := Some (total - idx)%Z |} in
            let nap := if str_eqb status (lit "blocked")
                       then BLOCK_SLEEP cfg else SLEEP_SECONDS cfg in
            let s' := {| state := st; stop_event := stop_event s;
                         data_file := file; workers := workers s;
                         sleeps := sleeps s ++ [nap] |} in
            (* time.sleep raises ValueError on a negative length *)
            if (nap <? 0)%Z then (Died, s')
            else (Looping total (idx + 1)%Z rest, s')
        end
  | Returned => (Returned, s)
  | Died => (Died, s)
  end.

Fixpoint set_nth {A} (n : nat) (x : A) (l : list A) : list A :=
  match l, n with
  | [], _ => []
  | _ :: l', O => x :: l'
  | y :: l', S n' => y :: set_nth n' x l'
  end.

(** Thread [tid] runs its next piece. *)
Definition work `{PyLib} (cfg : config) (tid : nat) (o : outcome)
    (s : system) : system :=
  match nth_error (workers s) tid with
  | None => s
  | Some w =>
      let (w', s') := runner_loop cfg o w s in
      {| state := state s'; stop_event := stop_event s';
         data_file := data_file s'; workers := set_nth tid w' (workers s');
         sleeps := sleeps s' |}
  end.

(** ** Routes ([_require_token], [start], [stop], lines 135-159) *)

Inductive reply :=
| Json (message : str) (code : Z)
| Aborted (code : Z) (description : str).

(** [true] when [_require_token] returns, [false] when it aborts. *)
Definition require_token (cfg : config) (token : option str) : bool :=
  match CONTROL_TOKEN cfg with
  | None => true
  | Some [] => true
  | Some secret =>
      match token with
      | Some t => str_eqb t secret
      | None => false
      end
  end.

Definition start (cfg : config) (token : option str) (s : system)
    : system * reply :=
  if negb (require_token cfg token) then
    (s, Aborted 401 (lit "Missing or invalid token"))
  else if running (state s) then
    (s, Json (lit "Already running") 200)
  else
    ({| state := state s; stop_event := false; data_file := data_file s;
        workers := workers s ++ [Spawned]; sleeps := sleeps s |},
     Json (lit "Started") 202).

Definition stop (cfg : config) (token : option str) (s : system)
    : system * reply :=
  if negb (require_token cfg token) then
    (s, Aborted 401 (lit "Missing or invalid token"))
  else if negb (running (state s)) then
    (s, Json (lit "Not running") 200)
  else
    ({| state := state s; stop_event := true; data_file := data_file s;
        workers := workers s; sleeps := sleeps s |},
     Json (lit "Stopping") 202).

(** ** Runs: requests and worker turns, in the order they happen *)

Inductive event :=
| GetStart (token : option str)
| GetStop (token : option str)
| Work (tid : nat) (o : outcome).

Definition step `{PyLib} (cfg : config) (s : system) (e : event) : system :=
  match e with
  | GetStart token => fst (start cfg token s)
  | GetStop token => fst (stop cfg token s)
  | Work tid o => work cfg tid o s
  end.

Definition run `{PyLib} (cfg : config) (events : list event) (s : system)
    : system :=
  fold_left (step cfg) events s.

(** A thread that is still executing [runner_loop]. *)
Definition alive (w : worker) : bool :=
  match w with
  | Spawned | Looping _ _ _ => true
  | Returned | Died => false
  end.

(** A thread inside the loop, past line 108. *)
Definition in_loop (w : worker) : bool :=
  match w with
  | Looping _ _ _ => true
  | _ => false
  end.

Definition active_loops (s : system) : nat :=
  List.length (filter in_loop (workers s)).

Definition worker_active (s : system) : bool := existsb alive (workers s).

(** An implementation of [lower] on ASCII letters, used to run the
    classifier on concrete texts; [json_loads] is given further down. *)
Definition lower_ascii (s : str) : str :=
  map (fun c => if (65 <=? c)%N && (c <=? 90)%N then (c + 32)%N else c) s.

(** ** A small decoder, to run the store on concrete files

    [loads_flat] reads a JSON object whose values are strings, written with
    the separators [json.dumps] uses; anything else is a decode error.  It
    stands for [json.loads] where a statement is run on a concrete file. *)
Definition hex_value (c : char) : option N :=
  if (48 <=? c)%N && (c <=? 57)%N then Some (c - 48)%N
  else if (97 <=? c)%N && (c <=? 102)%N then Some (c - 87)%N
  else if (65 <=? c)%N && (c <=? 70)%N then Some (c - 55)%N
  else None.

Definition unescape (e : char) : option char :=
  if (e =? 34)%N then Some 34%N
  else if (e =? 92)%N then Some 92%N
  else if (e =? 47)%N then Some 47%N
  else if (e =? 110)%N then Some 10%N
  else if (e =? 114)%N then Some 13%N
  else if (e =? 116)%N then Some 9%N
  else if (e =? 98)%N then Some 8%N
  else if (e =? 102)%N then Some 12%N
  else None.

Definition push (c : char) (r : option (str * str)) : option (str * str) :=
  match r with
  | Some (t, rest) => Some (c :: t, rest)
  | None => None
  end.

(** The characters of a string up to its closing quote, and what follows. *)
Fixpoint read_string (s : str) : option (str * str) :=
  match s with
  | [] => None
  | c :: s1 =>
      if (c =? 34)%N then Some ([], s1)
      else if (c =? 92)%N then
        match s1 with
        | [] => None
        | e :: s2 =>
            if (e =? 117)%N then
              match s2 with
              | h1 :: h2 :: h3 :: h4 :: s3 =>
                  match hex_value h1, hex_value h2, hex_value h3,
                        hex_value h4 with
                  | Some a, Some b, Some c', Some d =>
                      push (((a * 16 + b) * 16 + c') * 16 + d)%N
                           (read_string s3)
                  | _, _, _, _ => None
                  end
              | _ => None
              end
            else
              match unescape e with
              | Some d => push d (read_string s2)
              | None => None
              end
        end
      else if (c <? 32)%N then None
      else push c (read_string s1)
  end.

Definition expect (p s : str) : option str :=
  if startswith s p then Some (skipn (List.length p) s) else None.

Definition bind {A B} (x : option A) (k : A -> option B) : option B :=
  match x with
  | Some a => k a
  | None => None
  end.

Fixpoint read_items (fuel : nat) (s : str) : option (list (str * json)) :=
  match fuel with
  | O => None
  | S fuel' =>
      bind (expect [34%N] s) (fun s1 =>
      bind (read_string s1) (fun '(k, s2) =>
      bind (expect (lit ": ") s2) (fun s3 =>
      bind (expect [34%N] s3) (fun s4 =>
      bind (read_string s4) (fun '(v, s5) =>
        if str_eqb s5 (lit "}") then Some [(k, JStr v)]
        else
          bind (expect (lit ", ") s5) (fun s6 =>
          bind (read_items fuel' s6) (fun l => Some ((k, JStr v) :: l))))))))
  end.

Definition loads_flat (s : str) : option json :=
  if str_eqb s (lit "{}") then Some (JDict [])
  else bind (expect (lit "{") s) (fun s1 =>
       bind (read_items (List.length s) s1) (fun l => Some (JDict l))).

Definition plain_lib : PyLib :=
  {| lower := lower_ascii; json_loads := loads_flat |}.

(** ** Vocabulary of the statements, and the concrete runs they are tried on *)

(** The closed form of the sequence: the code at position [i] (from 0) has
    the letters number [i / 26] and [i mod 26]. *)
Definition code_at (i : nat) : str :=
  [ (65 + N.of_nat (i / 26))%N; (65 + N.of_nat (i mod 26))%N ].

(** A page that carries the rate-limit sentence and "Plate is issued". *)
Definition both_phrases : str :=
  lit "<p>You have reached the maximum plate preview attempts</p><p>Plate is issued</p>".

(** A configuration with the default intervals and no control token. *)
Definition quiet_config : config :=
  {| BASE_URL_L := Some (lit "https://plates.example/check?plate=");
     BASE_URL_R := Some (lit "&type=car");
     SLEEP_SECONDS := 60; BLOCK_SLEEP := 150; CONTROL_TOKEN := None |}.


(** A line of the data file, without its newline: a record that decodes
    to a value, or one that does not (blank, or refused by the decoder). *)
Inductive stored :=
| Good (line : str) (value : json)
| Bad (line : str).

Definition stored_line (e : stored) : str :=
  match e with
  | Good line _ => line
  | Bad line => line
  end.

(** The line holds no newline and is what its tag says. *)
Definition stored_ok `{PyLib} (e : stored) : Prop :=
  ~ In NL (stored_line e)
  /\ match e with
     | Good line v => strip line <> [] /\ json_loads (strip line) = Some v
     | Bad line => strip line = [] \/ json_loads (strip line) = None
     end.

(** The text of a file made of these lines, each ended by a newline. *)
Definition file_of (entries : list stored) : str :=
  flat_map (fun e => stored_line e ++ [NL]) entries.


(** The tag of an arbitrary line. *)
Definition classify_line `{PyLib} (line : str) : stored :=
  match strip line with
  | [] => Bad line
  | _ => match json_loads (strip line) with
         | Some v => Good line v
         | None => Bad line
         end
  end.

(** Three records, as [save_result] builds them. *)
Definition sample_aa : list (str * str) :=
  record (lit "AA") (lit "issued") [] (lit "2025-03-01T10:00:00").





(** An observation: the arguments of one [save_result] call and the time
    it reads from the clock. *)
Record observation := {
  ob_plate : str;
  ob_status : str;
  ob_note : str;
  ob_checked_at : str
}.

Definition ob_record (ob : observation) : list (str * str) :=
  record (ob_plate ob) (ob_status ob) (ob_note ob) (ob_checked_at ob).


(** The line an observation becomes, and the value it should read back as. *)
Definition ob_entry (ob : observation) : stored :=
  Good (json_dumps (ob_record ob)) (as_json (ob_record ob)).


Definition seen_aa : observation :=
  {| ob_plate := lit "AA"; ob_status := lit "issued"; ob_note := [];
     ob_checked_at := lit "2025-03-01T10:00:00" |}.

Definition seen_ab : observation :=
  {| ob_plate := lit "AB"; ob_status := lit "blocked";
     ob_note := lit "rate-limited";
     ob_checked_at := lit "2025-03-01T10:01:00" |}.

Definition seen_ac : observation :=
  {| ob_plate := lit "AC"; ob_status := lit "error";
     ob_note := lit "__ERROR__ HTTPSConnectionPool: Max retries exceeded";
     ob_checked_at := lit "2025-03-01T10:03:30" |}.

(** A system whose worker has gone through the whole sequence. *)
Definition finished_run : system :=
  {| state := {| running := false; last_plate := Some (lit "ZZ");
                 last_status := Some (lit "issued");
                 last_checked_at := Some (lit "2025-03-01T21:16:00");
                 queue_remaining := Some 0%Z |};
     stop_event := false; data_file := Some [];
     workers := [Returned]; sleeps := [] |}.


(** A turn that goes well, and one whose write the file system refuses. *)
Definition page_issued : outcome :=
  {| fetched := Body (lit "<h1>Plate is issued</h1>");
     save_time := lit "2025-03-01T10:00:00"; disk_ok := true;
     state_time := lit "2025-03-01T10:00:00" |}.

Definition disk_full : outcome :=
  {| fetched := Body (lit "<h1>Plate is issued</h1>");
     save_time := lit "2025-03-01T10:00:00"; disk_ok := false;
     state_time := lit "2025-03-01T10:00:00" |}.

(** Two [/start] requests, the second handled before the thread of the
    first has reached line 107; then each thread takes its first steps. *)
Definition after_first_start : system :=
  fst (start quiet_config None (initial None)).

Definition after_second_start : system :=
  fst (start quiet_config None after_first_start).

Definition both_in_loop : system :=
  run (H := plain_lib) quiet_config
      [Work 0 page_issued; Work 1 page_issued] after_second_start.

Definition both_probed : system :=
  run (H := plain_lib) quiet_config
      [Work 0 page_issued; Work 1 page_issued] both_in_loop.

(** A worker whose first write is refused by the file system. *)
Definition after_failed_write : system :=
  run (H := plain_lib) quiet_config
      [GetStart None; Work 0 page_issued; Work 0 disk_full] (initial None).

(** The text of the data file, empty when the file is absent. *)
Definition content (file : option str) : str :=
  match file with
  | Some text => text
  | None => []
  end.





(** A text of 300 letters x. *)
Definition long_text : str := repeat 120%N 300.

(** A configuration that asks for a token. *)
Definition guarded_config : config :=
  {| BASE_URL_L := Some (lit "https://plates.example/check?plate=");
     BASE_URL_R := Some (lit "&type=car");
     SLEEP_SECONDS := 60; BLOCK_SLEEP := 150;
     CONTROL_TOKEN := Some (lit "s3cret") |}.


(** A worker in the middle of a run. *)
Definition mid_run : system :=
  {| state := {| running := true; last_plate := Some (lit "AB");
                 last_status := Some (lit "issued");
                 last_checked_at := Some (lit "2025-03-01T10:01:00");
                 queue_remaining := Some 674%Z |};
     stop_event := false;
     data_file := Some (file_of [ob_entry seen_aa; ob_entry seen_ab]);
     workers := [Looping 676 3 [lit "AC"; lit "AD"]]; sleeps := [60%Z; 60%Z] |}.

(** Is the event a [/start] request? *)
Definition is_start (e : event) : bool :=
  match e with
  | GetStart _ => true
  | _ => false
  end.

(** What a snapshot may hold: a count between 0 and 676, a generated
    code, a status of the vocabulary. *)
Definition snapshot_ok (st : snapshot) : Prop :=
  match queue_remaining st with
  | Some q => (0 <= q <= 676)%Z
  | None => True
  end
  /\ match last_plate st with
     | Some plate => In plate generate_combinations
     | None => True
     end
  /\ match last_status st with
     | Some status => In status STATUSES
     | None => True
     end.

(** A thread of [runner_loop] holds the total of the generator and stands
    at the index that matches the codes it has left. *)
Definition worker_ok (w : worker) : Prop :=
  match w with
  | Looping total idx rest =>
      total = 676%Z /\ (1 <= idx)%Z
      /\ (idx + Z.of_nat (List.length rest) = 677)%Z
      /\ incl rest generate_combinations
  | _ => True
  end.



(** ** Strings: the tests decide their meaning *)

Lemma str_eqb_eq (a b : str) : str_eqb a b = true <-> a = b.
Proof.
  revert b; induction a as [|x a IH]; intros [|y b]; simpl;
    try (split; (discriminate || reflexivity)).
  rewrite andb_true_iff, N.eqb_eq, IH.
  split; [intros [-> ->]; reflexivity | intros E; inversion E; auto].
Qed.

Lemma startswith_prefix (s p : str) : startswith s p = true <-> prefix_of p s.
Proof.
  revert s; induction p as [|y p IH]; intros s.
  - split; [exists s; reflexivity | destruct s; reflexivity].
  - destruct s as [|x s]; simpl.
    + split; [discriminate | intros [r E]; discriminate].
    + rewrite andb_true_iff, N.eqb_eq, IH. split.
      * intros [-> [r ->]]. exists r. reflexivity.
      * intros [r E]. inversion E. split; [reflexivity | exists r; reflexivity].
Qed.

Lemma startswith_nil (p : str) : startswith [] p = true <-> p = [].
Proof. destruct p; simpl; split; congruence. Qed.

Lemma str_in_substring (sub s : str) : str_in sub s = true <-> substring_of sub s.
Proof.
  induction s as [|x s IH]; cbn [str_in].
  - rewrite startswith_nil. split.
    + intros ->. exists [], []. reflexivity.
    + intros (a & b & E). symmetry in E.
      apply app_eq_nil in E as [_ E]. apply app_eq_nil in E as [E _]. exact E.
  - rewrite orb_true_iff, IH, startswith_prefix. split.
    + intros [[r E] | (a & b & E)].
      * exists [], r. exact E.
      * exists (x :: a), b. simpl. f_equal. exact E.
    + intros (a & b & E). destruct a as [|y a].
      * left. exists b. exact E.
      * right. inversion E. exists a, b. reflexivity.
Qed.

Lemma not_prefix (s p : str) : startswith s p = false <-> ~ prefix_of p s.
Proof. rewrite <- startswith_prefix. destruct (startswith s p); intuition congruence. Qed.

Lemma not_substring (sub s : str) : str_in sub s = false <-> ~ substring_of sub s.
Proof. rewrite <- str_in_substring. destruct (str_in sub s); intuition congruence. Qed.

(** ** The combination generator *)

Section Ordered.
Variable A : Type.
Variable R : A -> A -> Prop.

Lemma StronglySorted_app (l1 l2 : list A) :
  StronglySorted R l1 -> StronglySorted R l2 ->
  (forall x y, In x l1 -> In y l2 -> R x y) ->
  StronglySorted R (l1 ++ l2).
Proof.
  induction l1 as [|a l1 IH]; simpl; intros S1 S2 Hlt; [exact S2|].
  apply StronglySorted_inv in S1 as [S1 Ha].
  constructor.
  - apply IH; auto.
  - apply Forall_app. split; [exact Ha|].
    apply Forall_forall. intros y Hy. apply Hlt; auto.
Qed.

Lemma StronglySorted_map (B : Type) (f : B -> A) (Q : B -> B -> Prop)
    (l : list B) :
  (forall x y, Q x y -> R (f x) (f y)) ->
  StronglySorted Q l -> StronglySorted R (map f l).
Proof.
  intros Hf. induction 1 as [|b l _ IH Hb]; simpl; constructor; auto.
  apply Forall_map. eapply Forall_impl; [|exact Hb]. auto.
Qed.

Lemma StronglySorted_NoDup (l : list A) :
  (forall x, ~ R x x) -> StronglySorted R l -> NoDup l.
Proof.
  intros Hirr. induction 1 as [|a l _ IH Ha]; constructor; auto.
  intros Hin. rewrite Forall_forall in Ha. exact (Hirr a (Ha a Hin)).
Qed.
End Ordered.

Lemma str_lt_irrefl (a : str) : ~ str_lt a a.
Proof.
  induction a as [|x a IH]; simpl; [tauto|].
  intros [H | [_ H]]; [lia | exact (IH H)].
Qed.

Lemma combinations_length (outer inner : str) :
  List.length (combinations_over outer inner)
  = (List.length outer * List.length inner)%nat.
Proof.
  unfold combinations_over. induction outer as [|a outer IH]; cbn [flat_map]; [reflexivity|].
  rewrite length_app, length_map. cbn [List.length Nat.mul]. f_equal. exact IH.
Qed.

Lemma combinations_in (outer inner : str) (c : str) :
  In c (combinations_over outer inner) <->
  exists a b, c = [a; b] /\ In a outer /\ In b inner.
Proof.
  unfold combinations_over. rewrite in_flat_map. split.
  - intros (a & Ha & Hc). apply in_map_iff in Hc as (b & <- & Hb).
    exists a, b. auto.
  - intros (a & b & -> & Ha & Hb). exists a. split; [exact Ha|].
    apply in_map_iff. exists b. auto.
Qed.

Lemma combinations_sorted (outer inner : str) :
  StronglySorted N.lt outer -> StronglySorted N.lt inner ->
  StronglySorted str_lt (combinations_over outer inner).
Proof.
  intros So Si. unfold combinations_over.
  induction So as [|a outer So IH Ha]; cbn [flat_map]; [constructor|].
  apply StronglySorted_app.
  - apply StronglySorted_map with (Q := N.lt); [|exact Si].
    intros x y Hxy. simpl. right. split; [reflexivity|]. left. exact Hxy.
  - exact IH.
  - intros x y Hx Hy.
    apply in_map_iff in Hx as (b & <- & _).
    apply (combinations_in outer inner) in Hy as (a' & b' & -> & Ha' & _).
    rewrite Forall_forall in Ha. simpl. left. exact (Ha a' Ha').
Qed.

Lemma letters_sorted : StronglySorted N.lt letters.
Proof.
  unfold letters. cbv [lit list_ascii_of_string map].
  repeat (constructor; try reflexivity).
Qed.

Lemma generate_combinations_closed :
  generate_combinations = map code_at (seq 0 676).
Proof. vm_compute. reflexivity. Qed.

(** C4.  [generate_combinations] returns 676 codes, each made of two
    letters of the alphabet A..Z, without repetition, in strictly
    increasing lexicographic order from AA to ZZ; the code at each position
    is fixed by the position alone, so every call gives the same list. *)
Theorem generate_combinations_spec :
  List.length generate_combinations = 676%nat
  /\ Forall (fun c => exists a b, c = [a; b] /\ In a letters /\ In b letters)
            generate_combinations
  /\ NoDup generate_combinations
  /\ StronglySorted str_lt generate_combinations
  /\ hd_error generate_combinations = Some (lit "AA")
  /\ last generate_combinations [] = lit "ZZ"
  /\ generate_combinations = map code_at (seq 0 676).
Proof.
  assert (Hs : StronglySorted str_lt generate_combinations)
    by (apply combinations_sorted; apply letters_sorted).
  split; [|split; [|split; [|split; [|split; [|split]]]]].
  - unfold generate_combinations. rewrite combinations_length. reflexivity.
  - apply Forall_forall. intros c Hc. apply combinations_in. exact Hc.
  - apply StronglySorted_NoDup with (R := str_lt); [apply str_lt_irrefl | exact Hs].
  - exact Hs.
  - vm_compute. reflexivity.
  - vm_compute. reflexivity.
  - exact generate_combinations_closed.
Qed.


(** ** The response classifier *)

Section Classifier.
Context `{PyLib}.


Lemma parse_status_in_vocabulary (s : str) :
  In (fst (parse_status s)) STATUSES.
Proof.
  unfold parse_status, STATUSES.
  destruct (startswith s ERROR_SENTINEL); [cbn [fst]; auto 6 using in_eq, in_cons|].
  destruct (str_in MAX_ATTEMPTS s); [cbn [fst]; auto 6 using in_eq, in_cons|].
  destruct (str_in PLATE_ISSUED s); [cbn [fst]; auto 6 using in_eq, in_cons|].
  destruct (str_in AVAILABLE (lower s)); cbn [fst]; auto 6 using in_eq, in_cons.
Qed.
End Classifier.

(** C3.  [parse_status] applies five rules, the first that matches
    deciding: a text that starts with the error sentinel gives "error"
    with the text (sentinel and failure description) as note; otherwise a
    text that contains the rate-limit sentence gives "blocked" and
    "rate-limited", whatever else it contains; otherwise a text that
    contains "Plate is issued" gives "issued"; otherwise a text whose
    lowercasing contains "available" gives "available"; otherwise the
    status is "unknown" and the note is the first 200 characters. *)
Theorem parse_status_rules `{PyLib} (s : str) :
  (prefix_of ERROR_SENTINEL s -> parse_status s = (lit "error", s))
  /\ (~ prefix_of ERROR_SENTINEL s ->
      substring_of MAX_ATTEMPTS s ->
      parse_status s = (lit "blocked", lit "rate-limited"))
  /\ (~ prefix_of ERROR_SENTINEL s ->
      ~ substring_of MAX_ATTEMPTS s ->
      substring_of PLATE_ISSUED s ->
      parse_status s = (lit "issued", []))
  /\ (~ prefix_of ERROR_SENTINEL s ->
      ~ substring_of MAX_ATTEMPTS s ->
      ~ substring_of PLATE_ISSUED s ->
      substring_of AVAILABLE (lower s) ->
      parse_status s = (lit "available", []))
  /\ (~ prefix_of ERROR_SENTINEL s ->
      ~ substring_of MAX_ATTEMPTS s ->
      ~ substring_of PLATE_ISSUED s ->
      ~ substring_of AVAILABLE (lower s) ->
      parse_status s = (lit "unknown", firstn 200 s)).
Proof.
  unfold parse_status, slice_to.
  repeat match goal with |- _ /\ _ => split end; intros;
    repeat match goal with
    | E : prefix_of _ _ |- _ => apply startswith_prefix in E; rewrite E
    | E : ~ prefix_of _ _ |- _ => apply not_prefix in E; rewrite E
    | E : substring_of _ _ |- _ => apply str_in_substring in E; rewrite E
    | E : ~ substring_of _ _ |- _ => apply not_substring in E; rewrite E
    end; reflexivity.
Qed.

Lemma parse_status_rules_witness :
  parse_status (H := plain_lib) both_phrases
  = (lit "blocked", lit "rate-limited").
Proof.
  apply (proj1 (proj2 (parse_status_rules (H := plain_lib) both_phrases))).
  - apply not_prefix. vm_compute. reflexivity.
  - apply str_in_substring. vm_compute. reflexivity.
Defined.

(** C8.  [parse_status] is a total function: on every text it returns a
    pair whose status is one of issued, available, blocked, error and
    unknown; on the empty text (whose lowercasing is empty) it returns
    "unknown" with an empty note. *)
Theorem parse_status_total `{PyLib} (lower_empty : lower [] = []) :
  (forall s, In (fst (parse_status s)) STATUSES)
  /\ parse_status [] = (lit "unknown", []).
Proof.
  split; [apply parse_status_in_vocabulary|].
  unfold parse_status. rewrite lower_empty. reflexivity.
Qed.

Lemma parse_status_total_witness :
  (forall s, In (fst (parse_status (H := plain_lib) s)) STATUSES)
  /\ parse_status (H := plain_lib) [] = (lit "unknown", []).
Proof. apply (parse_status_total (H := plain_lib)). reflexivity. Defined.

(** ** The fetch boundary *)





(** ** The result store *)

(** *** Stripping and line splitting *)






(** *** The reading loop collects what decodes *)

Section Reading.
Context `{PyLib}.


End Reading.

(** *** What [json.dumps] writes is one line *)







(** *** Files as lines *)


Section Scanning.
Context `{PyLib}.




End Scanning.


Lemma classify_line_ok `{PyLib} (line : str) :
  ~ In NL line -> stored_ok (classify_line line) /\ stored_line (classify_line line) = line.
Proof.
  intros Hnl. unfold classify_line, stored_ok.
  destruct (strip line) as [|c t] eqn:Es.
  - cbn [stored_line]. rewrite Es. auto.
  - destruct (json_loads (c :: t)) eqn:Ev; cbn [stored_line]; rewrite Es.
    + repeat split; auto. discriminate.
    + auto.
Qed.

(** Every text is such a file: it splits into lines, each of which either
    decodes or does not. *)
Lemma stored_ok_blank `{PyLib} : stored_ok (Bad []).
Proof. split; [intros [] | left; reflexivity]. Qed.

Lemma every_file_is_lines `{PyLib} (text : str) :
  exists entries tail,
    Forall stored_ok entries /\ stored_ok tail
    /\ text = file_of entries ++ stored_line tail.
Proof.
  induction text as [|c text (entries & tail & Hok & Htail & ->)].
  - exists [], (Bad []).
    split; [constructor | split; [apply stored_ok_blank | reflexivity]].
  - destruct (N.eqb_spec c NL) as [-> | Hc].
    + exists (Bad [] :: entries), tail.
      split; [constructor; [apply stored_ok_blank | exact Hok]|].
      split; [exact Htail | reflexivity].
    + destruct Hok as [|e entries He Hok].
      * destruct (classify_line_ok (c :: stored_line tail)) as [Hk El].
        { intros [E | Hin]; [congruence | exact (proj1 Htail Hin)]. }
        exists [], (classify_line (c :: stored_line tail)).
        split; [constructor | split; [exact Hk|]].
        cbn [file_of flat_map app]. rewrite El. reflexivity.
      * destruct (classify_line_ok (c :: stored_line e)) as [Hk El].
        { intros [E | Hin]; [congruence | exact (proj1 He Hin)]. }
        exists (classify_line (c :: stored_line e) :: entries), tail.
        split; [constructor; [exact Hk | exact Hok]|].
        split; [exact Htail|].
        cbn [file_of flat_map]. rewrite El. reflexivity.
Qed.




(** *** Appending and scanning *)




Lemma load_results_limit `{PyLib} (file : option str) (limit : Z) :
  load_results file (Some limit)
  = if (limit =? 0)%Z then load_results file None
    else slice_rows (load_results file None) limit.
Proof.
  unfold load_results. destruct file as [text|]; cbn [truthy].
  - destruct (limit =? 0)%Z; reflexivity.
  - destruct (limit =? 0)%Z; [reflexivity|].
    unfold slice_rows. destruct (0 <=? limit)%Z; rewrite firstn_nil; reflexivity.
Qed.





(** A negative limit cuts from the other end, as Python slices do. *)
Lemma load_results_negative_limit `{PyLib} (file : option str) (limit : Z) :
  (limit < 0)%Z ->
  let rows := load_results file None in
  load_results file (Some limit)
  = firstn (Z.to_nat (Z.of_nat (List.length rows) + limit)) rows.
Proof.
  intros Hneg rows. rewrite load_results_limit.
  destruct (Z.eqb_spec limit 0); [lia|].
  unfold slice_rows. destruct (Z.leb_spec 0 limit); [lia | reflexivity].
Qed.


(** ** The routes *)

Lemma start_while_running (cfg : config) (token : option str) (s : system) :
  require_token cfg token = true -> running (state s) = true ->
  start cfg token s = (s, Json (lit "Already running") 200%Z).
Proof. intros Ht Hr. unfold start. rewrite Ht, Hr. reflexivity. Qed.

Lemma refused_token (cfg : config) (token : option str) (s : system) :
  require_token cfg token = false ->
  start cfg token s = (s, Aborted 401%Z (lit "Missing or invalid token"))
  /\ stop cfg token s = (s, Aborted 401%Z (lit "Missing or invalid token")).
Proof. intros Ht. unfold start, stop. rewrite Ht. split; reflexivity. Qed.

(** C9.  While [running] is false, [stop] changes nothing: the snapshot,
    the stop flag, the file and the threads are what they were, whatever
    token comes with the request; and a request that passes the token gate
    is answered "Not running". *)
Theorem stop_when_idle (cfg : config) (token : option str) (s : system) :
  running (state s) = false ->
  fst (stop cfg token s) = s
  /\ state (fst (stop cfg token s)) = state s
  /\ (require_token cfg token = true ->
      snd (stop cfg token s) = Json (lit "Not running") 200%Z).
Proof.
  intros Hidle. unfold stop. rewrite Hidle.
  destruct (require_token cfg token); cbn [negb fst snd]; auto.
  repeat split. discriminate.
Qed.

Lemma stop_when_idle_witness :
  stop quiet_config None finished_run
  = (finished_run, Json (lit "Not running") 200%Z).
Proof.
  pose proof (stop_when_idle quiet_config None finished_run eq_refl)
    as (Hs & _ & Hr).
  rewrite (surjective_pairing (stop quiet_config None finished_run)).
  rewrite Hs, (Hr eq_refl). reflexivity.
Defined.

(** ** The worker loop *)

Section Loop.
Context `{PyLib}.
Variable cfg : config.
Hypothesis sleep_ok : (0 <= SLEEP_SECONDS cfg)%Z.
Hypothesis block_ok : (0 <= BLOCK_SLEEP cfg)%Z.





(** Leaving the loop, by exhaustion or by the stop flag, resets
    [running]. *)
Lemma loop_end_resets_running (o : outcome) (s : system) (total idx : Z)
    (rest : list str) :
  rest = [] \/ stop_event s = true ->
  runner_loop cfg o (Looping total idx rest) s
  = (Returned, with_state (set_running false (state s)) s).
Proof.
  intros [-> | Hstop]; [reflexivity|].
  destruct rest; cbn [runner_loop]; [reflexivity|]. rewrite Hstop. reflexivity.
Qed.
End Loop.

(** ** Two runs that go wrong *)

(** C1, on the code.  The second of two [/start] requests in a row finds
    [running] still false, so it too answers "Started" and spawns a
    thread; both threads enter the loop, and both probe "AA": the store
    holds two records for it.  (A [/start] that finds [running] true is a
    no-op: [start_while_running].) *)
Theorem two_starts_two_loops :
  snd (start quiet_config None (initial None)) = Json (lit "Started") 202%Z
  /\ running (state after_first_start) = false
  /\ snd (start quiet_config None after_first_start)
     = Json (lit "Started") 202%Z
  /\ workers both_in_loop
     = [Looping 676 1 generate_combinations;
        Looping 676 1 generate_combinations]
  /\ active_loops both_in_loop = 2%nat
  /\ data_file both_probed
     = Some ((json_dumps sample_aa ++ [NL]) ++ (json_dumps sample_aa ++ [NL])).
Proof. vm_compute. repeat split; reflexivity. Qed.

(** C2, on the code.  When [save_result] raises, the exception ends the
    thread before line 132: no worker is alive, yet [running] stays true,
    and from then on [/start] answers "Already running".  (The progress
    part of the claim holds: [progress_after]; so does the reset on
    exhaustion and on cancellation: [loop_end_resets_running].) *)
Theorem persistence_failure_leaves_running :
  workers after_failed_write = [Died]
  /\ worker_active after_failed_write = false
  /\ running (state after_failed_write) = true
  /\ start quiet_config None after_failed_write
     = (after_failed_write, Json (lit "Already running") 200%Z).
Proof. vm_compute. repeat split; reflexivity. Qed.

(** ** More on the classifier *)

Lemma statuses_differ :
  lit "error" <> lit "blocked" /\ lit "error" <> lit "issued"
  /\ lit "error" <> lit "available" /\ lit "error" <> lit "unknown"
  /\ lit "blocked" <> lit "issued" /\ lit "blocked" <> lit "available"
  /\ lit "blocked" <> lit "unknown" /\ lit "issued" <> lit "available"
  /\ lit "issued" <> lit "unknown" /\ lit "available" <> lit "unknown".
Proof. repeat split; discriminate. Qed.

(** The status tells which rule fired: "error" exactly for the texts that
    start with the sentinel, "blocked" exactly for the others that contain
    the rate-limit sentence, and so on down the list. *)
Theorem parse_status_inversion `{PyLib} (s : str) :
  (fst (parse_status s) = lit "error" <-> prefix_of ERROR_SENTINEL s)
  /\ (fst (parse_status s) = lit "blocked" <->
      ~ prefix_of ERROR_SENTINEL s /\ substring_of MAX_ATTEMPTS s)
  /\ (fst (parse_status s) = lit "issued" <->
      ~ prefix_of ERROR_SENTINEL s /\ ~ substring_of MAX_ATTEMPTS s
      /\ substring_of PLATE_ISSUED s)
  /\ (fst (parse_status s) = lit "available" <->
      ~ prefix_of ERROR_SENTINEL s /\ ~ substring_of MAX_ATTEMPTS s
      /\ ~ substring_of PLATE_ISSUED s /\ substring_of AVAILABLE (lower s))
  /\ (fst (parse_status s) = lit "unknown" <->
      ~ prefix_of ERROR_SENTINEL s /\ ~ substring_of MAX_ATTEMPTS s
      /\ ~ substring_of PLATE_ISSUED s
      /\ ~ substring_of AVAILABLE (lower s)).
Proof.
  rewrite <- !not_prefix, <- !not_substring, <- !str_in_substring,
    <- startswith_prefix.
  unfold parse_status.
  destruct (startswith s ERROR_SENTINEL);
    [|destruct (str_in MAX_ATTEMPTS s);
      [|destruct (str_in PLATE_ISSUED s);
        [|destruct (str_in AVAILABLE (lower s))]]];
    cbn [fst]; repeat split; intros; try reflexivity; try discriminate;
    repeat match goal with H : _ /\ _ |- _ => destruct H end;
    try discriminate.
Qed.

(** Unless the text starts with the error sentinel, the note has at most
    200 characters. *)
Theorem parse_status_note_bound `{PyLib} (s : str) :
  ~ prefix_of ERROR_SENTINEL s ->
  (List.length (snd (parse_status s)) <= 200)%nat.
Proof.
  intros Hp. apply not_prefix in Hp. unfold parse_status. rewrite Hp.
  destruct (str_in MAX_ATTEMPTS s); [cbn; lia|].
  destruct (str_in PLATE_ISSUED s); [cbn; lia|].
  destruct (str_in AVAILABLE (lower s)); [cbn; lia|].
  cbn [snd]. unfold slice_to. rewrite length_firstn. lia.
Qed.

Lemma parse_status_note_bound_witness :
  (List.length (snd (parse_status (H := plain_lib) long_text)) <= 200)%nat.
Proof.
  apply (parse_status_note_bound (H := plain_lib) long_text).
  apply not_prefix. vm_compute. reflexivity.
Defined.

(** ** More on the routes *)

(** A request passes [_require_token] exactly when no token (or an empty
    one) is configured, or the request carries the configured token. *)
Theorem require_token_spec (cfg : config) (token : option str) :
  require_token cfg token = true <->
  (CONTROL_TOKEN cfg = None \/ CONTROL_TOKEN cfg = Some []
   \/ token = CONTROL_TOKEN cfg).
Proof.
  unfold require_token.
  destruct (CONTROL_TOKEN cfg) as [[|c secret]|]; [tauto| |tauto].
  destruct token as [t|].
  - rewrite str_eqb_eq. split.
    + intros ->. auto.
    + intros [E | [E | E]]; try discriminate. congruence.
  - split; [discriminate|]. intros [E | [E | E]]; discriminate.
Qed.

(** A request without the right token is answered 401 and has no
    effect, on [start] as on [stop]. *)
Theorem refused_request_changes_nothing (cfg : config)
    (token : option str) (s : system) :
  require_token cfg token = false ->
  start cfg token s = (s, Aborted 401%Z (lit "Missing or invalid token"))
  /\ stop cfg token s = (s, Aborted 401%Z (lit "Missing or invalid token")).
Proof. intros Ht. unfold start, stop. rewrite Ht. split; reflexivity. Qed.

Lemma refused_request_changes_nothing_witness :
  start guarded_config (Some (lit "guess")) mid_run
  = (mid_run, Aborted 401%Z (lit "Missing or invalid token"))
  /\ stop guarded_config (Some (lit "guess")) mid_run
     = (mid_run, Aborted 401%Z (lit "Missing or invalid token")).
Proof.
  apply (refused_request_changes_nothing guarded_config
           (Some (lit "guess")) mid_run).
  reflexivity.
Defined.

(** [stop] never touches the snapshot, the file, the threads or the sleep
    log, whatever the token and whatever the worker does: [running] stays
    as it was until the worker itself leaves the loop.  A second [stop]
    with the same token changes nothing more. *)
Theorem stop_only_sets_the_flag (cfg : config) (token : option str)
    (s : system) :
  let s' := fst (stop cfg token s) in
  state s' = state s /\ data_file s' = data_file s
  /\ workers s' = workers s /\ sleeps s' = sleeps s
  /\ stop_event s'
     = stop_event s || (require_token cfg token && running (state s))
  /\ fst (stop cfg token s') = s'.
Proof.
  unfold stop.
  destruct (require_token cfg token) eqn:Ht;
    destruct (running (state s)) eqn:Hr;
    cbn [negb fst state data_file workers sleeps stop_event andb];
    rewrite ?Ht, ?Hr, ?orb_true_r, ?orb_false_r; cbn [negb fst]; auto 7.
Qed.

(** While [running] is true, any number of [/start] requests, with or
    without a valid token, leave the system as it is: no thread is
    spawned and the stop flag is not cleared. *)
Theorem starts_while_running_are_noops `{PyLib} (cfg : config)
    (events : list event) (s : system) :
  forallb is_start events = true ->
  running (state s) = true ->
  run cfg events s = s.
Proof.
  intros Hev Hrun. induction events as [|e events IH]; [reflexivity|].
  cbn [forallb] in Hev. apply andb_true_iff in Hev as [He Hev].
  destruct e as [token | |]; try discriminate.
  unfold run. cbn [fold_left step]. unfold start. rewrite Hrun.
  destruct (require_token cfg token); cbn [negb fst]; exact (IH Hev).
Qed.

Lemma starts_while_running_are_noops_witness :
  run (H := plain_lib) guarded_config
      [GetStart None; GetStart (Some (lit "s3cret")); GetStart None] mid_run
  = mid_run.
Proof.
  apply (starts_while_running_are_noops (H := plain_lib) guarded_config);
    reflexivity.
Defined.

(** ** More on the result store *)

(** A positive limit caps the scan: at most [limit] rows come back, they
    are the head of the unlimited scan, and when the store has no more
    than [limit] rows the limit changes nothing. *)
Theorem load_results_limit_caps `{PyLib} (file : option str) (limit : Z) :
  (0 < limit)%Z ->
  let all := load_results file None in
  let rows := load_results file (Some limit) in
  (Z.of_nat (List.length rows) <= limit)%Z
  /\ rows = firstn (Z.to_nat limit) all
  /\ (exists older, all = rows ++ older)
  /\ ((Z.of_nat (List.length all) <= limit)%Z -> rows = all).
Proof.
  intros Hpos all rows.
  assert (E : rows = firstn (Z.to_nat limit) all).
  { subst rows all. rewrite load_results_limit.
    destruct (Z.eqb_spec limit 0); [lia|].
    unfold slice_rows. destruct (Z.leb_spec 0 limit); [reflexivity | lia]. }
  split; [rewrite E, length_firstn; lia|]. split; [exact E|]. split.
  - exists (skipn (Z.to_nat limit) all). rewrite E. symmetry. apply firstn_skipn.
  - intros Hall. rewrite E. apply firstn_all2. lia.
Qed.

Lemma load_results_limit_caps_witness :
  load_results (H := plain_lib)
    (Some (file_of [ob_entry seen_aa; ob_entry seen_ab; ob_entry seen_ac]))
    (Some 2%Z)
  = [as_json (ob_record seen_ac); as_json (ob_record seen_ab)].
Proof.
  pose proof (load_results_limit_caps (H := plain_lib)
                (Some (file_of [ob_entry seen_aa; ob_entry seen_ab;
                                ob_entry seen_ac])) 2%Z eq_refl) as W.
  cbv zeta in W. destruct W as (_ & W & _). rewrite W.
  vm_compute. reflexivity.
Defined.

(** A negative limit is handed to the slice as it is: the scan loses its
    [-limit] oldest rows, and is empty when the store has no more rows
    than that. *)
Theorem load_results_negative_limit_drops_oldest `{PyLib}
    (file : option str) (limit : Z) :
  (limit < 0)%Z ->
  let all := load_results file None in
  let rows := load_results file (Some limit) in
  rows = firstn (List.length all - Z.to_nat (- limit)) all
  /\ List.length rows = (List.length all - Z.to_nat (- limit))%nat.
Proof.
  intros Hneg all rows.
  assert (E : rows = firstn (List.length all - Z.to_nat (- limit)) all).
  { subst rows. rewrite (load_results_negative_limit file limit Hneg).
    fold all. f_equal. lia. }
  split; [exact E|]. rewrite E, length_firstn. lia.
Qed.

Lemma load_results_negative_limit_drops_oldest_witness :
  load_results (H := plain_lib)
    (Some (file_of [ob_entry seen_aa; ob_entry seen_ab; ob_entry seen_ac]))
    (Some (-1)%Z)
  = [as_json (ob_record seen_ac); as_json (ob_record seen_ab)].
Proof.
  pose proof (load_results_negative_limit_drops_oldest (H := plain_lib)
                (Some (file_of [ob_entry seen_aa; ob_entry seen_ab;
                                ob_entry seen_ac])) (-1)%Z eq_refl) as W.
  cbv zeta in W. destruct W as (W & _). rewrite W.
  vm_compute. reflexivity.
Defined.

(** *** Appending to a store that already holds lines *)
















(** *** The store only grows *)

Lemma runner_loop_extends `{PyLib} (cfg : config) (o : outcome) (w : worker)
    (s : system) :
  exists added,
    content (data_file (snd (runner_loop cfg o w s)))
    = content (data_file s) ++ added
    /\ (data_file s <> None -> data_file (snd (runner_loop cfg o w s)) <> None).
Proof.
  destruct w as [| total idx [|plate rest] | |]; cbn [runner_loop snd];
    try (exists []; rewrite app_nil_r; split; [reflexivity | auto]).
  destruct (stop_event s);
    [exists []; rewrite app_nil_r; split; [reflexivity | auto]|].
  destruct (parse_status _) as [status note]. unfold save_result.
  destruct (disk_ok o);
    [|exists []; rewrite app_nil_r; split; [reflexivity | auto]].
  eexists.
  destruct (_ <? 0)%Z; cbn [snd data_file content];
    (split; [destruct (data_file s); reflexivity | discriminate]).
Qed.

Lemma step_extends `{PyLib} (cfg : config) (s : system) (e : event) :
  exists added,
    content (data_file (step cfg s e)) = content (data_file s) ++ added
    /\ (data_file s <> None -> data_file (step cfg s e) <> None).
Proof.
  destruct e as [token | token | tid o]; cbn [step].
  - exists []. rewrite app_nil_r. unfold start.
    destruct (negb _); [auto|]. destruct (running _); auto.
  - exists []. rewrite app_nil_r. unfold stop.
    destruct (negb _); [auto|]. destruct (negb _); auto.
  - unfold work. destruct (nth_error (workers s) tid) as [w|];
      [|exists []; rewrite app_nil_r; auto].
    destruct (runner_loop_extends cfg o w s) as (added & E & Hn).
    destruct (runner_loop cfg o w s) as [w' s']. cbn [snd] in *.
    exists added. auto.
Qed.

(** Whatever requests arrive and however the threads run, the data file
    is only appended to: its old text is a prefix of the new one, and a
    file that exists is never removed. *)
Theorem store_is_append_only `{PyLib} (cfg : config) (events : list event)
    (s : system) :
  exists added,
    content (data_file (run cfg events s)) = content (data_file s) ++ added
    /\ match data_file s with
       | Some _ => data_file (run cfg events s) <> None
       | None => True
       end.
Proof.
  enough (G : exists added,
             content (data_file (run cfg events s))
             = content (data_file s) ++ added
             /\ (data_file s <> None -> data_file (run cfg events s) <> None)).
  { destruct G as (added & E & N). exists added. split; [exact E|].
    destruct (data_file s); [apply N; discriminate | exact I]. }
  revert s. induction events as [|e events IH]; intros s.
  - exists []. rewrite app_nil_r. auto.
  - unfold run. cbn [fold_left]. fold (run cfg events (step cfg s e)).
    destruct (step_extends cfg s e) as (a1 & E1 & N1).
    destruct (IH (step cfg s e)) as (a2 & E2 & N2).
    exists (a1 ++ a2). rewrite E2, E1, app_assoc. auto.
Qed.

(** ** More on the worker loop *)



Lemma work_lone `{PyLib} (cfg : config) (o : outcome) (s s' : system)
    (w w' : worker) :
  workers s = [w] -> runner_loop cfg o w s = (w', s') ->
  workers s' = workers s ->
  work cfg 0 o s
  = {| state := state s'; stop_event := stop_event s';
       data_file := data_file s'; workers := [w']; sleeps := sleeps s' |}.
Proof.
  intros Hw Hr Hw'. unfold work. rewrite Hw. cbn [nth_error].
  rewrite Hr, Hw', Hw. reflexivity.
Qed.



(** *** Stopping and starting again *)

(** After an accepted [/stop], the next step of the worker is to leave:
    it makes no probe, writes no record, sleeps no more, and resets
    [running]; the rest of the snapshot keeps the last observation. *)
Theorem stopped_worker_leaves_without_probing `{PyLib} (cfg : config)
    (token : option str) (o : outcome) (s : system) (total idx : Z)
    (rest : list str) :
  workers s = [Looping total idx rest] ->
  running (state s) = true ->
  require_token cfg token = true ->
  snd (stop cfg token s) = Json (lit "Stopping") 202%Z
  /\ run cfg [GetStop token; Work 0 o] s
     = {| state := set_running false (state s); stop_event := true;
          data_file := data_file s; workers := [Returned];
          sleeps := sleeps s |}.
Proof.
  intros Hw Hrun Htok. unfold run. cbn [fold_left step]. unfold stop.
  rewrite Htok, Hrun. cbn [negb fst snd]. split; [reflexivity|].
  erewrite work_lone; [| exact Hw | apply loop_end_resets_running | ];
    [reflexivity | right; reflexivity | reflexivity].
Qed.

Lemma stopped_worker_leaves_without_probing_witness :
  data_file (run (H := plain_lib) quiet_config
               [GetStop None; Work 0 page_issued] mid_run)
  = data_file mid_run.
Proof.
  destruct (stopped_worker_leaves_without_probing (H := plain_lib)
              quiet_config None page_issued mid_run 676 3
              [lit "AC"; lit "AD"] eq_refl eq_refl eq_refl) as [_ W].
  rewrite W. reflexivity.
Defined.

(** A [/start] that arrives after an accepted [/stop] and before the
    worker has left the loop is answered "Already running" and does not
    take the stop back: the worker still leaves, and the system ends
    idle. *)
Theorem start_after_stop_is_lost `{PyLib} (cfg : config)
    (token token' : option str) (o : outcome) (s : system) (total idx : Z)
    (rest : list str) :
  workers s = [Looping total idx rest] ->
  running (state s) = true ->
  require_token cfg token = true ->
  require_token cfg token' = true ->
  snd (start cfg token' (fst (stop cfg token s)))
  = Json (lit "Already running") 200%Z
  /\ run cfg [GetStop token; GetStart token'; Work 0 o] s
     = {| state := set_running false (state s); stop_event := true;
          data_file := data_file s; workers := [Returned];
          sleeps := sleeps s |}.
Proof.
  intros Hw Hrun Htok Htok'. unfold run. cbn [fold_left step].
  unfold stop. rewrite Htok, Hrun. cbn [negb fst].
  unfold start. cbn [state]. rewrite Htok', Hrun. cbn [negb fst snd].
  split; [reflexivity|].
  erewrite work_lone; [| exact Hw | apply loop_end_resets_running | ];
    [reflexivity | right; reflexivity | reflexivity].
Qed.

Lemma start_after_stop_is_lost_witness :
  workers (run (H := plain_lib) quiet_config
             [GetStop None; GetStart None; Work 0 page_issued] mid_run)
  = [Returned].
Proof.
  destruct (start_after_stop_is_lost (H := plain_lib) quiet_config None None
              page_issued mid_run 676 3 [lit "AC"; lit "AD"]
              eq_refl eq_refl eq_refl eq_refl) as [_ W].
  rewrite W. reflexivity.
Defined.

Lemma nth_error_last {A} (l : list A) (x : A) :
  nth_error (l ++ [x]) (List.length l) = Some x.
Proof. induction l as [|y l IH]; [reflexivity | exact IH]. Qed.

Lemma set_nth_last {A} (l : list A) (x y : A) :
  set_nth (List.length l) y (l ++ [x]) = l ++ [y].
Proof.
  induction l as [|z l IH]; [reflexivity|]. cbn [List.length app set_nth].
  rewrite IH. reflexivity.
Qed.

(** An accepted [/start] on an idle system clears the stop flag and
    spawns a worker that begins again at the first code with 676 to go,
    wherever an earlier run ended; [last_plate], [last_status] and
    [last_checked_at] of the earlier run stay in the snapshot until the
    first probe. *)
Theorem restart_begins_again `{PyLib} (cfg : config) (token : option str)
    (o : outcome) (s : system) :
  running (state s) = false ->
  require_token cfg token = true ->
  run cfg [GetStart token; Work (List.length (workers s)) o] s
  = {| state := {| running := true;
                   last_plate := last_plate (state s);
                   last_status := last_status (state s);
                   last_checked_at := last_checked_at (state s);
                   queue_remaining := Some 676%Z |};
       stop_event := false; data_file := data_file s;
       workers := workers s ++ [Looping 676 1 generate_combinations];
       sleeps := sleeps s |}.
Proof.
  intros Hidle Htok. unfold run. cbn [fold_left step]. unfold start.
  rewrite Htok, Hidle. cbn [negb fst]. unfold work. cbn [workers].
  rewrite nth_error_last. cbn [runner_loop with_state state stop_event
    data_file workers sleeps]. rewrite set_nth_last. reflexivity.
Qed.

Lemma restart_begins_again_witness :
  run (H := plain_lib) quiet_config [GetStart None; Work 1 page_issued]
      finished_run
  = {| state := {| running := true; last_plate := Some (lit "ZZ");
                   last_status := Some (lit "issued");
                   last_checked_at := Some (lit "2025-03-01T21:16:00");
                   queue_remaining := Some 676%Z |};
       stop_event := false; data_file := Some [];
       workers := [Returned; Looping 676 1 generate_combinations];
       sleeps := [] |}.
Proof.
  apply (restart_begins_again (H := plain_lib) quiet_config None page_issued
           finished_run); reflexivity.
Defined.

(** *** A whole run *)




Lemma generate_combinations_length :
  List.length generate_combinations = 676%nat.
Proof. unfold generate_combinations. rewrite combinations_length. reflexivity. Qed.





(** *** What every run keeps *)

Lemma Forall_set_nth {A} (P : A -> Prop) (l : list A) (n : nat) (x : A) :
  Forall P l -> P x -> Forall P (set_nth n x l).
Proof.
  intros Hl Hx. revert n. induction Hl as [|y l Hy Hl IH]; intros n;
    [destruct n; constructor|].
  destruct n; cbn [set_nth]; constructor; auto.
Qed.

Lemma nth_error_Forall {A} (P : A -> Prop) (l : list A) (n : nat) (x : A) :
  Forall P l -> nth_error l n = Some x -> P x.
Proof.
  intros Hl Hn. rewrite Forall_forall in Hl. apply Hl.
  eapply nth_error_In. exact Hn.
Qed.

Lemma runner_loop_keeps_ok `{PyLib} (cfg : config) (o : outcome) (w : worker)
    (s : system) :
  snapshot_ok (state s) -> worker_ok w ->
  snapshot_ok (state (snd (runner_loop cfg o w s)))
  /\ worker_ok (fst (runner_loop cfg o w s))
  /\ workers (snd (runner_loop cfg o w s)) = workers s.
Proof.
  intros (Hq & Hp & Hst) Hw.
  destruct w as [| total idx [|plate rest] | |];
    cbn [runner_loop fst snd with_state set_running state workers].
  - split; [|split; [|reflexivity]].
    + split; [|split]; cbn [queue_remaining last_plate last_status]; auto.
      rewrite generate_combinations_length. lia.
    + cbn [worker_ok]. rewrite generate_combinations_length.
      repeat split; try lia. apply incl_refl.
  - repeat split; auto.
  - destruct Hw as (-> & Hidx & Hsum & Hincl).
    destruct (stop_event s); [repeat split; auto|].
    destruct (parse_status _) as [status note] eqn:Eps. unfold save_result.
    destruct (disk_ok o); [|repeat split; auto].
    assert (Hnew : snapshot_ok
                     {| running := running (state s);
                        last_plate := Some plate; last_status := Some status;
                        last_checked_at := Some (state_time o);
                        queue_remaining := Some (676 - idx)%Z |}).
    { split; [|split]; cbn [queue_remaining last_plate last_status].
      - cbn [List.length] in Hsum. lia.
      - apply Hincl. left. reflexivity.
      - replace status with (fst (parse_status
          (check_plate (fun _ => fetched o)
             (fmt (BASE_URL_L cfg) ++ plate ++ fmt (BASE_URL_R cfg)))))
          by (rewrite Eps; reflexivity).
        apply parse_status_in_vocabulary. }
    destruct (_ <? 0)%Z; cbn [fst snd state workers worker_ok];
      (split; [exact Hnew|]); (split; [|reflexivity]); [exact I|].
    cbn [List.length] in Hsum. repeat split; try lia.
    intros x Hx. apply Hincl. right. exact Hx.
  - repeat split; auto.
  - repeat split; auto.
Qed.

Lemma step_keeps_ok `{PyLib} (cfg : config) (s : system) (e : event) :
  snapshot_ok (state s) /\ Forall worker_ok (workers s) ->
  snapshot_ok (state (step cfg s e))
  /\ Forall worker_ok (workers (step cfg s e)).
Proof.
  intros [Hs Hw]. destruct e as [token | token | tid o]; cbn [step].
  - unfold start. destruct (negb _); [auto|].
    destruct (running _); cbn [fst state workers]; [auto|].
    split; [exact Hs|]. apply Forall_app. split; [exact Hw|].
    constructor; [exact I | constructor].
  - unfold stop. destruct (negb _); [auto|]. destruct (negb _); auto.
  - unfold work. destruct (nth_error (workers s) tid) as [w|] eqn:En; [|auto].
    pose proof (nth_error_Forall _ _ _ _ Hw En) as Hwk.
    destruct (runner_loop_keeps_ok cfg o w s Hs Hwk) as (Hs' & Hw' & Ew).
    destruct (runner_loop cfg o w s) as [w' s']. cbn [fst snd] in *.
    cbn [state workers]. split; [exact Hs'|].
    rewrite Ew. apply Forall_set_nth; assumption.
Qed.

(** In every run from a fresh process, whatever the requests, the
    answers of the site, the failures and the number of threads, the
    snapshot holds a [queue_remaining] between 0 and 676 (or none yet), a
    [last_plate] that is one of the generated codes, and a [last_status]
    of the five-word vocabulary. *)
Theorem snapshot_stays_in_range `{PyLib} (cfg : config)
    (events : list event) (file : option str) :
  snapshot_ok (state (run cfg events (initial file))).
Proof.
  enough (G : forall s,
             snapshot_ok (state s) /\ Forall worker_ok (workers s) ->
             snapshot_ok (state (run cfg events s))
             /\ Forall worker_ok (workers (run cfg events s))).
  { apply G. split; [repeat split | constructor]. }
  induction events as [|e events IH]; intros s Hs; [exact Hs|].
  unfold run. cbn [fold_left]. apply IH. apply step_keeps_ok. exact Hs.
Qed.

(** *** Edges of a turn *)

Lemma error_status_iff `{PyLib} (s : str) :
  fst (parse_status s) = lit "error" <-> startswith s ERROR_SENTINEL = true.
Proof.
  unfold parse_status. destruct (startswith s ERROR_SENTINEL).
  - split; reflexivity.
  - destruct (str_in MAX_ATTEMPTS s); [split; discriminate|].
    destruct (str_in PLATE_ISSUED s); [split; discriminate|].
    destruct (str_in AVAILABLE (lower s)); split; discriminate.
Qed.

(** A probe is classified "error" in two cases only: the fetch raised, or
    it succeeded with a body that itself starts with the error sentinel.
    So an "error" record does not by itself say that the fetch failed. *)
Theorem error_status_sources `{PyLib} (fetch : str -> response) (url : str) :
  fst (parse_status (check_plate fetch url)) = lit "error" <->
  (exists e, fetch url = Raised e)
  \/ (exists text, fetch url = Body text /\ prefix_of ERROR_SENTINEL text).
Proof.
  rewrite error_status_iff. unfold check_plate.
  destruct (fetch url) as [text | e] eqn:Ef.
  - replace (match text with [] => lit "" | _ :: _ => text end) with text
      by (destruct text; reflexivity).
    rewrite startswith_prefix. split.
    + intros Hp. right. exists text. auto.
    + intros [[e He] | (t & Ht & Hp)]; [discriminate|]. congruence.
  - split; [intros _; left; exists e; reflexivity|]. intros _.
    apply startswith_prefix. exists (lit " " ++ e). reflexivity.
Qed.



